(** * vedro-gitlab-reporter: the GitLab scenario reporter

    A shallow embedding of [vedro_gitlab_reporter/_gitlab_reporter.py]
    (class [GitlabReporter]) and the properties of its step-to-scope
    attribution and of its collapsible-section framing.

    Conventions of the embedding:
    - a Python [str] is a [string] (the bytes of its UTF-8 encoding);
    - a [Set[str]] is a [gset string];
    - a Python [dict] is an insertion-ordered association list ([pydict]):
      assigning to a key that is present replaces the value in place,
      assigning to a new key appends it;
    - a timestamp is a finite number of seconds, a rational ([Q]);
      [int(...)] on it truncates toward zero;
    - [self._console.print(text, style=..., end=...)] appends one [call] to
      the console log; rendering (markup, colours) is the console's business
      and lies outside the reporter;
    - a handler is a computation in the monad [M]: it yields what it
      prints, in order, and either a result or the Python exception that
      stopped it; what was printed before an exception stays printed. *)

From Stdlib Require Import QArith Qround Ascii String.
From stdpp Require Import base option list strings gmap pretty.

Open Scope Z_scope.

(** ** Python values *)

Module Py.

(** Insertion-ordered dictionaries with [str] keys. *)
Definition pydict (V : Type) : Type := list (string * V).

Fixpoint get {V} (d : pydict V) (k : string) : option V :=
  match d with
  | [] => None
  | (k', v) :: d' => if decide (k' = k) then Some v else get d' k
  end.

(** [d[k] = v] *)
Fixpoint set {V} (d : pydict V) (k : string) (v : V) : pydict V :=
  match d with
  | [] => [(k, v)]
  | (k', v') :: d' =>
      if decide (k' = k) then (k, v) :: d' else (k', v') :: set d' k v
  end.

Definition keys {V} (d : pydict V) : list string := d.*1.

Definition values {V} (d : pydict V) : list V := d.*2.

(** [set(d.keys())] *)
Definition key_set {V} (d : pydict V) : gset string := list_to_set (keys d).

(** [int(x)] for a finite float [x]: truncation toward zero. *)
Definition int (x : Q) : Z := Z.quot (Qnum x) (Z.pos (Qden x)).

(** Truthiness of a float: [0.0] is falsy. *)
Definition truthy (x : Q) : bool := negb (Z.eqb (Qnum x) 0).

(** [str(n)] for an [int], as an f-string interpolates it. *)
Definition str (n : Z) : string := pretty n.

(** ["".join(parts)] *)
Definition join (parts : list string) : string := fold_right String.append "" parts.

Inductive exn : Type :=
| AssertionError
| KeyError (k : string).

End Py.

Abbreviation pydict := Py.pydict.

(** ** The console *)

Inductive color : Type := red | blue | yellow.

(** One call of [Console.print]. [end_] is what the console writes after
    the text: a newline unless the caller passes [end=""]. *)
Record call : Type := Print {
  text : string;
  style : option color;
  end_ : string }.

Definition newline : string := String "010"%char "".


Definition console : Type := list call.

(** ** Computations that print and may raise *)

Definition M (A : Type) : Type := (console * (Py.exn + A))%type.

Definition ret {A} (a : A) : M A := ([], inr a).

Definition raise {A} (e : Py.exn) : M A := ([], inl e).

Definition bind {A B} (k : A -> M B) (m : M A) : M B :=
  match m with
  | (out, inr a) => let (out', r) := k a in (out ++ out', r)
  | (out, inl e) => (out, inl e)
  end.

#[global] Instance M_ret : MRet M := @ret.
#[global] Instance M_bind : MBind M := @bind.

(** What a computation printed, and how it ended. *)
Definition printed {A} (m : M A) : console := m.1.
Definition outcome {A} (m : M A) : Py.exn + A := m.2.

(** [self._console.print(text, style=style, end=end)] *)
Definition console_print (t : string) (s : option color) (e : string) : M unit :=
  ([Print t s e], inr tt).

(** [for x in xs: body(x)] *)
Fixpoint for_each {A} (xs : list A) (body : A -> M unit) : M unit :=
  match xs with
  | [] => mret tt
  | x :: xs' => body x ;; for_each xs' body
  end.

(** ** Section framing primitives *)

Definition ESC : string := String "027"%char "".
Definition CR : string := String "013"%char "".

(** The f-string of [_print_section_start]. *)
Definition section_start_text (name : string) (started_at : Z) (is_collapsed : bool) : string :=
  let collapsed := if is_collapsed then "true" else "false" in
  ESC +:+ "[0Ksection_start:" +:+ Py.str started_at +:+ ":" +:+ name
      +:+ "[collapsed=" +:+ collapsed +:+ "]" +:+ CR +:+ ESC +:+ "[0K".

(** [_print_section_start(name, started_at, is_collapsed=True)]; an omitted
    third argument is [None] here. *)
Definition _print_section_start (name : string) (started_at : Z)
    (is_collapsed : option bool) : M unit :=
  let is_collapsed := default true is_collapsed in
  let output := section_start_text name started_at is_collapsed in
  console_print output None "".

(** The f-string of [_print_section_end]. *)
Definition section_end_text (name : string) (ended_at : Z) : string :=
  ESC +:+ "[0Ksection_end:" +:+ Py.str ended_at +:+ ":" +:+ name +:+ CR +:+ ESC +:+ "[0K".

(** [_print_section_end(name, ended_at)] *)
Definition _print_section_end (name : string) (ended_at : Z) : M unit :=
  let output := section_end_text name ended_at in
  console_print output None newline.

(** ** The reporter *)

(** [vedro]'s [StepStatus]. *)
Inductive StepStatus : Type := PENDING | PASSED | FAILED.

#[global] Instance StepStatus_eq_dec : EqDecision StepStatus.
Proof. solve_decision. Defined.

(** A reference to a [ScenarioResult] object of the framework. *)
Definition ref : Type := nat.

Section Reporter.

(** Values held in a scope and the exception triple of a failed step are
    the framework's; the reporter only passes them on. *)
Context {value exc_info_t : Type}.

(** How the framework's [format_scope] renders one value. *)
Variable format_value : value -> string.

(** Modelled from the spec: [format_scope] is imported from
    [vedro.plugins.director.rich.utils] and is not part of this repository.
    It yields, for each entry of the scope and in the scope's order, the
    key and the formatted value. *)
Definition format_scope (scope : pydict value) : list (string * string) :=
  map (fun '(key, val) => (key, format_value val)) scope.

(** [traceback.format_exception] applied to the step's exception triple. *)
Variable format_exception : exc_info_t -> list string.

(** [RichReporter.on_scenario_run], the handler of the base class. *)
Variable super_on_scenario_run : ref -> M unit.

Record StepResult : Type := {
  step_name : string;
  status : StepStatus;
  started_at : option Q;
  ended_at : option Q;
  exc_info : option exc_info_t }.

Definition is_passed (s : StepResult) : bool := bool_decide (status s = PASSED).
Definition is_failed (s : StepResult) : bool := bool_decide (status s = FAILED).

(** [scope] is [None] until the framework records one. *)
Record ScenarioResult : Type := {
  scenario_subject : string;
  step_results : list StepResult;
  scope : option (pydict value) }.

(** The framework's scenario results. The reporter keeps a reference to
    the running one, so it sees what the framework writes to it between
    two events. *)
Definition store : Type := ref -> ScenarioResult.

(** Writing to the object behind a reference. *)
Definition update (σ : store) (r : ref) (sr : ScenarioResult) : store :=
  fun r' => if decide (r' = r) then sr else σ r'.

(** [scenario_result.set_scope(scope)], done by the framework. *)
Definition set_scope (σ : store) (r : ref) (sc : pydict value) : store :=
  update σ r {| scenario_subject := scenario_subject (σ r);
                step_results := step_results (σ r);
                scope := Some sc |}.

(** [scenario_result.add_step_result(step_result)], done by the framework. *)
Definition add_step_result (σ : store) (r : ref) (s : StepResult) : store :=
  update σ r {| scenario_subject := scenario_subject (σ r);
                step_results := step_results (σ r) ++ [s];
                scope := scope (σ r) |}.

Record ScenarioRunEvent : Type := { run_scenario_result : ref }.
Record StepPassEvent : Type := { step_result : StepResult }.
Record ScenarioFailEvent : Type := { fail_scenario_result : ref }.

(** The fields of a [GitlabReporter]; [_verbosity] is the base class's. *)
Record GitlabReporter : Type := {
  _verbosity : Z;
  _scenario_result : option ref;
  _scenario_steps : pydict (gset string);
  _prev_step_name : option string }.

(** [__init__] *)
Definition init (verbosity : Z) : GitlabReporter :=
  {| _verbosity := verbosity;
     _scenario_result := None;
     _scenario_steps := [];
     _prev_step_name := None |}.

(** Truthiness of a dict that may be [None]. *)
Definition scope_truthy (sc : option (pydict value)) : bool :=
  match sc with
  | Some (_ :: _) => true
  | _ => false
  end.

(** [on_scenario_run] *)
Definition on_scenario_run (self : GitlabReporter) (event : ScenarioRunEvent)
    : M GitlabReporter :=
  super_on_scenario_run (run_scenario_result event) ;;
  mret {| _verbosity := _verbosity self;
          _scenario_result := Some (run_scenario_result event);
          _scenario_steps := [];
          _prev_step_name := None |}.

(** [self._scenario_steps[step_name] = delta; self._prev_step_name = step_name] *)
Definition store_delta (self : GitlabReporter) (name : string) (delta : gset string)
    : GitlabReporter :=
  {| _verbosity := _verbosity self;
     _scenario_result := _scenario_result self;
     _scenario_steps := Py.set (_scenario_steps self) name delta;
     _prev_step_name := Some name |}.

(** [on_step_end], subscribed to both [StepPassEvent] and [StepFailEvent]. *)
Definition on_step_end (σ : store) (self : GitlabReporter) (event : StepPassEvent)
    : M GitlabReporter :=
  match _scenario_result self with
  | None => raise Py.AssertionError
  | Some r =>
      let step_scope : gset string :=
        if scope_truthy (scope (σ r))
        then Py.key_set (default [] (scope (σ r)))
        else ∅ in
      let step_name := step_name (step_result event) in
      match _prev_step_name self with
      | Some prev =>
          match Py.get (_scenario_steps self) prev with
          | None => raise (Py.KeyError prev)
          | Some prev_step_scope =>
              mret (store_delta self step_name (step_scope ∖ prev_step_scope))
          end
      | None => mret (store_delta self step_name step_scope)
      end
  end.

(** The section label of a step, [None] where the loop [continue]s. *)
Definition section_name_of (s : StepResult) : option string :=
  if is_passed s then Some ("    ✔ " +:+ step_name s)
  else if is_failed s then Some ("    ✗ " +:+ step_name s)
  else None.

(** [int(t) if t else 0] *)
Definition timestamp (t : option Q) : Z :=
  match t with
  | Some x => if Py.truthy x then Py.int x else 0
  | None => 0
  end.

(** The inner loop of [_print_steps]: the variables attributed to a step. *)
Definition print_step_scope (self : GitlabReporter) (sr : ScenarioResult)
    (s : StepResult) : M unit :=
  let scope := if scope_truthy (scope sr) then default [] (scope sr) else [] in
  for_each (format_scope scope) (fun '(key, val) =>
    match Py.get (_scenario_steps self) (step_name s) with
    | None => raise (Py.KeyError (step_name s))
    | Some delta =>
        if decide (key ∈ delta) then
          console_print ("       " +:+ key +:+ ": ") (Some blue) newline ;;
          console_print val None newline
        else mret tt
    end).

(** The body of the loop of [_print_steps]. *)
Definition print_step (self : GitlabReporter) (scenario_result : ScenarioResult)
    (step_result : StepResult) : M unit :=
  match section_name_of step_result with
  | None => mret tt
  | Some section_name =>
      let started_at := timestamp (started_at step_result) in
      _print_section_start section_name started_at None ;;
      print_step_scope self scenario_result step_result ;;
      let ended_at := timestamp (ended_at step_result) in
      _print_section_end section_name ended_at
  end.

(** [_print_steps] *)
Definition _print_steps (self : GitlabReporter) (scenario_result : ScenarioResult)
    : M unit :=
  for_each (step_results scenario_result) (print_step self scenario_result).

(** [_print_exceptions] *)
Definition _print_exceptions (scenario_result : ScenarioResult) : M unit :=
  for_each (step_results scenario_result) (fun step_result =>
    match exc_info step_result with
    | None => mret tt
    | Some exc_info =>
        let tb := format_exception exc_info in
        console_print (Py.join tb) (Some yellow) newline
    end).

(** [on_scenario_fail] *)
Definition on_scenario_fail (σ : store) (self : GitlabReporter)
    (event : ScenarioFailEvent) : M unit :=
  let scenario_result := σ (fail_scenario_result event) in
  let subject := scenario_subject scenario_result in
  console_print (" ✗ " +:+ subject) (Some red) newline ;;
  (if decide (_verbosity self = 1) then _print_steps self scenario_result else mret tt) ;;
  (if decide (_verbosity self > 1) then _print_exceptions scenario_result else mret tt).

(** *** Running a scenario *)

(** The step events of one scenario, each with the store as the framework
    left it when the event fired. *)
Fixpoint run_step_events (self : GitlabReporter) (events : list (store * StepPassEvent))
    : M GitlabReporter :=
  match events with
  | [] => mret self
  | (σ, event) :: events' =>
      self' ← on_step_end σ self event;
      run_step_events self' events'
  end.

(** The reporter as [on_scenario_run] leaves it. *)
Definition started (verbosity : Z) (r : ref) : GitlabReporter :=
  {| _verbosity := verbosity;
     _scenario_result := Some r;
     _scenario_steps := [];
     _prev_step_name := None |}.

(** *** Notions used by the statements *)

(** The keys of the scope recorded for a scenario, none if there is no scope. *)
Definition scope_keys (sr : ScenarioResult) : gset string :=
  match scope sr with
  | Some d => Py.key_set d
  | None => ∅
  end.

Definition event_names (events : list (store * StepPassEvent)) : list string :=
  map (fun e => step_name (step_result e.2)) events.

(** The previous-step pointer, when set, names a step with a recorded delta. *)
Definition consistent (self : GitlabReporter) : Prop :=
  match _prev_step_name self with
  | Some prev => is_Some (Py.get (_scenario_steps self) prev)
  | None => True
  end.

(** The delta recorded for a step. *)
Definition delta_of (self : GitlabReporter) (name : string) : option (gset string) :=
  Py.get (_scenario_steps self) name.

(** Truncation toward zero, by rounding down or up according to the sign. *)
Definition truncate (x : Q) : Z :=
  if Qle_bool 0 x then Qfloor x else Qceiling x.

(** A timestamp truncated to whole seconds, 0 when absent. *)
Definition whole_seconds (t : option Q) : Z :=
  match t with
  | Some x => truncate x
  | None => 0
  end.

(** Steps that [_print_steps] does not skip. *)
Definition is_printed (s : StepResult) : bool := is_passed s || is_failed s.

Definition printed_steps (sr : ScenarioResult) : list StepResult :=
  filter (fun s => is_printed s = true) (step_results sr).

(** The scope as [_print_steps] hands it to [format_scope]. *)
Definition final_scope (sr : ScenarioResult) : pydict value :=
  default [] (scope sr).

(** The two lines printed for a variable. *)
Definition var_lines (key val : string) : console :=
  [Print ("       " +:+ key +:+ ": ") (Some blue) newline; Print val None newline].

(** The variable lines of a step with delta [delta]. *)
Definition scope_lines (delta : gset string) (sr : ScenarioResult) : console :=
  flat_map (fun kv => if decide (kv.1 ∈ delta) then var_lines kv.1 kv.2 else [])
           (format_scope (final_scope sr)).

Definition start_call (name : string) (t : Z) : call :=
  Print (section_start_text name t true) None "".

Definition end_call (name : string) (t : Z) : call :=
  Print (section_end_text name t) None newline.

(** Everything printed for one step when its section is completed. *)
Definition block (self : GitlabReporter) (sr : ScenarioResult) (s : StepResult) : console :=
  match section_name_of s with
  | Some name =>
      start_call name (whole_seconds (started_at s))
      :: scope_lines (default ∅ (delta_of self (step_name s))) sr
      ++ [end_call name (whole_seconds (ended_at s))]
  | None => []
  end.

(** The line that [on_scenario_fail] starts with. *)
Definition failure_line (sr : ScenarioResult) : call :=
  Print (" ✗ " +:+ scenario_subject sr) (Some red) newline.

(** One yellow traceback per step with exception information. *)
Definition exception_lines (sr : ScenarioResult) : console :=
  flat_map (fun s => match exc_info s with
                     | Some e => [Print (Py.join (format_exception e)) (Some yellow) newline]
                     | None => []
                     end)
           (step_results sr).



End Reporter.

(** A call is a section-start (section-end) control sequence for [name]. *)
Definition is_section_start (name : string) (c : call) : Prop :=
  exists t b, c = Print (section_start_text name t b) None "".

Definition is_section_end (name : string) (c : call) : Prop :=
  exists t, c = Print (section_end_text name t) None newline.

Definition is_section_sequence (c : call) : Prop :=
  exists name, is_section_start name c \/ is_section_end name c.


(** A string without [":"]. *)
Definition colon_free (s : string) : Prop :=
  forall a b, s ≠ a +:+ String ":"%char b.

(** The keys of a dictionary after [d[k] = v]: a new key is appended. *)
Definition add_key (ks : list string) (k : string) : list string :=
  if decide (k ∈ ks) then ks else ks ++ [k].


(** ** Sample data

    Scenarios in the style of the repository's tests: scope values are
    strings, formatted the way JSON quotes them. *)

Module Sample.

Definition quote (v : string) : string :=
  String "034"%char (v +:+ String "034"%char "").

Definition format_exception (e : string) : list string := [e; newline].

Definition step (name : string) (st : StepStatus) (t0 t1 : option Q)
    : @StepResult string :=
  {| step_name := name; status := st; started_at := t0; ended_at := t1;
     exc_info := None |}.

Definition scenario (steps : list (@StepResult string)) (sc : option (pydict string))
    : @ScenarioResult string string :=
  {| scenario_subject := "subject"; step_results := steps; scope := sc |}.

(** A store whose only scenario of interest sits behind reference 0. *)
Definition σ_of (sr : @ScenarioResult string string) : store := fun _ => sr.

Definition fail : ScenarioFailEvent := {| fail_scenario_result := 0%nat |}.

(** Three steps that each add one variable to the scope. *)
Definition growing : list (@store string string * @StepPassEvent string) :=
  [ (σ_of (scenario [] (Some [("a", "1")])),
     {| step_result := step "given" PASSED None None |});
    (σ_of (scenario [] (Some [("a", "1"); ("b", "2")])),
     {| step_result := step "when" PASSED None None |});
    (σ_of (scenario [] (Some [("a", "1"); ("b", "2"); ("c", "3")])),
     {| step_result := step "then" FAILED None None |}) ].

(** The reporter with given verbosity and recorded deltas. *)
Definition reporter (verbosity : Z) (steps : pydict (gset string)) : GitlabReporter :=
  {| _verbosity := verbosity;
     _scenario_result := Some 0%nat;
     _scenario_steps := steps;
     _prev_step_name := None |}.

(** The scenario of the repository's verbosity-2 test: one failed step,
    fired when the scope is [{"key": "val"}]. *)
Definition then_step : @StepResult string := step "then" FAILED None None.

Definition key_val : pydict string := [("key", "val")].

Definition one_step_events : list (@store string string * @StepPassEvent string) :=
  [ (σ_of (scenario [] (Some key_val)), {| step_result := then_step |}) ].

Definition one_step_failed : @store string string :=
  σ_of (scenario [then_step] (Some key_val)).

(** The scenario of the verbosity-1 test: one failed step with timestamps
    and no scope. *)
Definition timed_step : @StepResult string := step "then" FAILED (Some 1%Q) (Some 3%Q).

Definition timed_failed : @store string string := σ_of (scenario [timed_step] None).

End Sample.

(** ** The life of a reporter *)

Section Lifecycle.

Context {value exc_info_t : Type}.
Variable super_on_scenario_run : ref -> M unit.

(** The states a reporter goes through: constructed by [__init__], then
    driven by scenario-run and step events that return, whatever the
    framework does to its scenario results in between. *)
Inductive reachable : GitlabReporter -> Prop :=
| reachable_init (verbosity : Z) :
    reachable (init verbosity)
| reachable_scenario_run self event out self' :
    reachable self ->
    on_scenario_run super_on_scenario_run self event = (out, inr self') ->
    reachable self'
| reachable_step_end (σ : @store value exc_info_t) self event out self' :
    reachable self ->
    on_step_end σ self event = (out, inr self') ->
    reachable self'.

End Lifecycle.

(** The scenario result without the steps that [_print_steps] skips. *)
Definition only_printed {value exc_info_t : Type}
    (sr : @ScenarioResult value exc_info_t) : ScenarioResult :=
  {| scenario_subject := scenario_subject sr;
     step_results := printed_steps sr;
     scope := scope sr |}.

(** The first of the two lines printed for a variable. *)
Definition key_line (key : string) : call :=
  Print ("       " +:+ key +:+ ": ") (Some blue) newline.

(** The steps that carry exception information. *)
Definition raised_steps {exc_info_t : Type} (steps : list (@StepResult exc_info_t))
    : list StepResult :=
  filter (fun s => is_Some (exc_info s)) steps.


(** * Properties *)

Ltac unfold_M :=
  unfold mbind, M_bind, bind, mret, M_ret, ret, raise, console_print,
    printed, outcome in *.

(** ** Strings *)



Lemma string_app_length (s1 s2 : string) :
  String.length (s1 +:+ s2) = (String.length s1 + String.length s2)%nat.
Proof.
  induction s1 as [|c s1 IH]; [done|].
  change (S (String.length (s1 +:+ s2)) = S (String.length s1 + String.length s2)).
  by rewrite IH.
Qed.

Lemma string_app_inv_tail (s1 s2 t : string) : s1 +:+ t = s2 +:+ t -> s1 = s2.
Proof.
  revert s2. induction s1 as [|c s1 IH]; intros [|c' s2] Heq; [done|..].
  - apply (f_equal String.length) in Heq.
    rewrite !string_app_length in Heq. cbn in Heq. lia.
  - apply (f_equal String.length) in Heq.
    rewrite !string_app_length in Heq. cbn in Heq. lia.
  - injection Heq as -> Heq. f_equal. by apply IH.
Qed.

(** If one suffix is a character longer than the other, the longer prefix
    ends with the character that the longer suffix starts with. *)
Lemma string_app_inv_longer (s1 s2 t1 t2 : string) :
  s1 +:+ t1 = s2 +:+ t2 ->
  String.length t2 = S (String.length t1) ->
  exists c, String c t1 = t2.
Proof.
  revert s2. induction s1 as [|c s1 IH]; intros [|c' s2] Heq Hlen.
  - change (t1 = t2) in Heq. subst. lia.
  - apply (f_equal String.length) in Heq.
    rewrite !string_app_length in Heq. cbn in Heq. lia.
  - destruct s1 as [|c1 s1].
    + change (String c t1 = t2) in Heq. by exists c.
    + apply (f_equal String.length) in Heq.
      rewrite !string_app_length in Heq. cbn in Heq. lia.
  - injection Heq as -> Heq. by apply (IH s2).
Qed.

Lemma colon_free_nil : colon_free "".
Proof. intros [|c a] b; discriminate. Qed.

Lemma colon_free_cons (c : ascii) (s : string) :
  c ≠ ":"%char -> colon_free s -> colon_free (String c s).
Proof.
  intros Hc Hs [|c' a] b Heq.
  - injection Heq as -> _. done.
  - injection Heq as -> Heq. by apply (Hs a b).
Qed.

Lemma colon_free_tail (c : ascii) (s : string) :
  colon_free (String c s) -> colon_free s.
Proof. intros Hs a b ->. by apply (Hs (String c a) b). Qed.

Lemma pretty_N_char_no_colon (x : N) : pretty_N_char x ≠ ":"%char.
Proof. unfold pretty_N_char. by repeat case_match. Qed.

Lemma pretty_N_go_colon_free (x : N) (s : string) :
  colon_free s -> colon_free (pretty_N_go x s).
Proof.
  revert s. induction (N.lt_wf_0 x) as [x _ IH]; intros s Hs.
  assert (x = 0 ∨ 0 < x)%N as [->|Hpos] by lia.
  - by rewrite pretty_N_go_0.
  - rewrite pretty_N_go_step by done. apply IH.
    + by apply N.div_lt.
    + apply colon_free_cons; [apply pretty_N_char_no_colon | done].
Qed.

Lemma pretty_N_colon_free (x : N) : colon_free (pretty x).
Proof.
  unfold pretty, pretty_N. case_decide.
  - apply colon_free_cons; [done | apply colon_free_nil].
  - apply pretty_N_go_colon_free, colon_free_nil.
Qed.

Lemma str_colon_free (n : Z) : colon_free (Py.str n).
Proof.
  unfold Py.str, pretty, pretty_Z. destruct n as [|p|p].
  - apply colon_free_cons; [done | apply colon_free_nil].
  - apply (pretty_N_colon_free (N.pos p)).
  - apply colon_free_cons; [done | apply (pretty_N_colon_free (N.pos p))].
Qed.

(** Two strings split at their first colon have the same parts. *)
Lemma colon_split (s1 s2 x1 x2 : string) :
  colon_free s1 -> colon_free s2 ->
  s1 +:+ String ":"%char x1 = s2 +:+ String ":"%char x2 ->
  s1 = s2 /\ x1 = x2.
Proof.
  revert s2. induction s1 as [|c s1 IH]; intros [|c' s2] H1 H2 Heq.
  - by injection Heq.
  - injection Heq as <- _. by destruct (H2 "" s2).
  - injection Heq as -> _. by destruct (H1 "" s1).
  - injection Heq as -> Heq.
    destruct (IH s2) as [-> ->]; eauto using colon_free_tail.
Qed.

(** The name of a section can be read back from its control sequences. *)
Lemma section_end_text_inj (n n' : string) (t t' : Z) :
  section_end_text n t = section_end_text n' t' -> n = n'.
Proof.
  unfold section_end_text. intros Heq.
  apply (inj (String.append ESC)), (inj (String.append "[0Ksection_end:")) in Heq.
  apply (colon_split _ _ (n +:+ CR +:+ ESC +:+ "[0K") (n' +:+ CR +:+ ESC +:+ "[0K"))
    in Heq as [_ Heq]; [|apply str_colon_free..].
  by apply string_app_inv_tail in Heq.
Qed.

Lemma section_start_text_inj (n n' : string) (t t' : Z) (b b' : bool) :
  section_start_text n t b = section_start_text n' t' b' -> n = n'.
Proof.
  unfold section_start_text. intros Heq.
  apply (inj (String.append ESC)), (inj (String.append "[0Ksection_start:")) in Heq.
  apply (colon_split _ _
           (n +:+ "[collapsed=" +:+ (if b then "true" else "false")
              +:+ "]" +:+ CR +:+ ESC +:+ "[0K")
           (n' +:+ "[collapsed=" +:+ (if b' then "true" else "false")
              +:+ "]" +:+ CR +:+ ESC +:+ "[0K"))
    in Heq as [_ Heq]; [|apply str_colon_free..].
  destruct b, b'.
  - by apply string_app_inv_tail in Heq.
  - apply string_app_inv_longer in Heq as [c Hc]; [|done].
    vm_compute in Hc. discriminate.
  - symmetry in Heq. apply string_app_inv_longer in Heq as [c Hc]; [|done].
    vm_compute in Hc. discriminate.
  - by apply string_app_inv_tail in Heq.
Qed.

(** ** Timestamps *)

(** [int] on a float is truncation toward zero. *)
Lemma int_truncate (x : Q) : Py.int x = truncate x.
Proof.
  destruct x as [n d]. unfold Py.int, truncate, Qle_bool, Qceiling, Qfloor. simpl.
  destruct (Z.leb_spec (0 * Z.pos d) (n * 1)) as [Hle|Hlt].
  - apply Z.quot_div_nonneg; lia.
  - replace n with (- - n) at 1 by lia.
    rewrite Z.quot_opp_l by lia. f_equal. apply Z.quot_div_nonneg; lia.
Qed.

(** [int(t) if t else 0] is the timestamp in whole seconds: a timestamp
    of [0.0] takes the [else] branch, to the same effect. *)
Lemma timestamp_whole_seconds (t : option Q) : timestamp t = whole_seconds t.
Proof.
  destruct t as [x|]; simpl; [|done].
  rewrite <- int_truncate. unfold Py.truthy.
  destruct (Z.eqb_spec (Qnum x) 0) as [Hz|Hnz]; simpl; [|done].
  unfold Py.int. by rewrite Hz.
Qed.

(** ** Dictionaries *)

Section Dict.
Context {V : Type}.
Implicit Types (d : pydict V) (k : string) (v : V).

Lemma get_set_eq d k v : Py.get (Py.set d k v) k = Some v.
Proof.
  induction d as [|[k' v'] d IH]; simpl.
  - by rewrite decide_True.
  - destruct (decide (k' = k)) as [->|Hne]; simpl.
    + by rewrite decide_True.
    + by rewrite decide_False.
Qed.

Lemma get_set_ne d k k' v : k ≠ k' -> Py.get (Py.set d k v) k' = Py.get d k'.
Proof.
  intros Hne. induction d as [|[k0 v0] d IH]; simpl.
  - by rewrite decide_False.
  - destruct (decide (k0 = k)) as [->|Hk]; simpl.
    + by rewrite !decide_False.
    + destruct (decide (k0 = k')); [done | apply IH].
Qed.

Lemma get_Some_keys d k : is_Some (Py.get d k) <-> k ∈ Py.keys d.
Proof.
  unfold Py.keys. induction d as [|[k' v'] d IH]; simpl.
  - split; [by intros [? ?] | by intros ?%elem_of_nil].
  - destruct (decide (k' = k)) as [->|Hne].
    + split; [intros _; left | by eauto].
    + rewrite IH. split; [by right | intros Hin].
      apply elem_of_cons in Hin as [?|?]; [congruence | done].
Qed.


(** Assigning to a present key keeps the order of the keys. *)
Lemma keys_set_present d k v : k ∈ Py.keys d -> Py.keys (Py.set d k v) = Py.keys d.
Proof.
  unfold Py.keys. induction d as [|[k' v'] d IH]; simpl; intros Hin.
  - by apply elem_of_nil in Hin.
  - destruct (decide (k' = k)) as [->|Hne]; simpl; [done|].
    f_equal. apply IH. apply elem_of_cons in Hin as [?|?]; [congruence | done].
Qed.

(** Assigning to a new key appends it. *)
Lemma keys_set_fresh d k v : k ∉ Py.keys d -> Py.keys (Py.set d k v) = Py.keys d ++ [k].
Proof.
  unfold Py.keys. induction d as [|[k' v'] d IH]; simpl; intros Hin; [done|].
  apply not_elem_of_cons in Hin as [Hne Hin].
  rewrite decide_False by congruence. simpl. f_equal. by apply IH.
Qed.

End Dict.

(** ** Section framing primitives *)


(** ** The reporter's handlers *)

Section Properties.

Context {value exc_info_t : Type}.
Variable format_value : value -> string.
Variable format_exception : exc_info_t -> list string.

Implicit Types (σ : @store value exc_info_t) (self : GitlabReporter).
Implicit Types (sr : @ScenarioResult value exc_info_t) (s : @StepResult exc_info_t).

(** The scope-key set that [on_step_end] reads is the set of keys of the
    recorded scope. *)
Lemma step_scope_keys sr :
  (if scope_truthy (scope sr) then Py.key_set (default [] (scope sr)) else ∅)
  = scope_keys sr.
Proof. unfold scope_keys. by destruct (scope sr) as [[|? ?]|]. Qed.

Lemma on_step_end_first σ self event r :
  _scenario_result self = Some r ->
  _prev_step_name self = None ->
  on_step_end σ self event =
    ([], inr (store_delta self (step_name (step_result event)) (scope_keys (σ r)))).
Proof.
  intros Hr Hprev. unfold on_step_end. by rewrite Hr, Hprev, step_scope_keys.
Qed.

Lemma on_step_end_next σ self event r prev d :
  _scenario_result self = Some r ->
  _prev_step_name self = Some prev ->
  delta_of self prev = Some d ->
  on_step_end σ self event =
    ([], inr (store_delta self (step_name (step_result event)) (scope_keys (σ r) ∖ d))).
Proof.
  intros Hr Hprev Hd. unfold on_step_end, delta_of in *.
  by rewrite Hr, Hprev, Hd, step_scope_keys.
Qed.

Lemma store_delta_consistent self name delta : consistent (store_delta self name delta).
Proof. unfold consistent. simpl. rewrite get_set_eq. by eexists. Qed.

(** In a consistent state with a running scenario, [on_step_end] returns. *)
Lemma on_step_end_returns σ self event r :
  _scenario_result self = Some r ->
  consistent self ->
  exists delta,
    on_step_end σ self event =
      ([], inr (store_delta self (step_name (step_result event)) delta)).
Proof.
  intros Hr Hc. unfold consistent in Hc.
  destruct (_prev_step_name self) as [prev|] eqn:Hprev.
  - destruct Hc as [d Hd]. eexists. by eapply on_step_end_next.
  - eexists. by eapply on_step_end_first.
Qed.

(** C3: while a scenario is active, [on_step_end] stores for the current
    step the current scope-key set minus the delta recorded for the
    immediately preceding step, or the whole current scope-key set (empty
    when no scope is recorded) if there is no preceding step; the entries of
    the other steps are left as they are, the previous-step pointer becomes
    the current step's name, and nothing is printed. *)
Theorem C3_on_step_end σ self event r :
  _scenario_result self = Some r ->
  consistent self ->
  exists self',
    on_step_end σ self event = ([], inr self')
    /\ (forall prev, _prev_step_name self = Some prev ->
          exists d, delta_of self prev = Some d
            /\ delta_of self' (step_name (step_result event))
                 = Some (scope_keys (σ r) ∖ d))
    /\ (_prev_step_name self = None ->
          delta_of self' (step_name (step_result event)) = Some (scope_keys (σ r))
          /\ (scope (σ r) = None ->
                delta_of self' (step_name (step_result event)) = Some ∅))
    /\ (forall other, other ≠ step_name (step_result event) ->
          delta_of self' other = delta_of self other)
    /\ _prev_step_name self' = Some (step_name (step_result event)).
Proof.
  intros Hr Hc. unfold consistent in Hc.
  destruct (_prev_step_name self) as [prev|] eqn:Hprev.
  - destruct Hc as [d Hd]. eexists. split; [by eapply on_step_end_next|].
    unfold delta_of; simpl. repeat split.
    + intros ? [= <-]. exists d. by rewrite get_set_eq.
    + done.
    + done.
    + intros other Hne. by apply get_set_ne.
  - eexists. split; [by eapply on_step_end_first|].
    unfold delta_of; simpl. repeat split.
    + done.
    + by rewrite get_set_eq.
    + intros Hnone. rewrite get_set_eq. unfold scope_keys. by rewrite Hnone.
    + intros other Hne. by apply get_set_ne.
Qed.

Lemma keys_store_delta self name delta :
  Py.keys (_scenario_steps (store_delta self name delta))
  = add_key (Py.keys (_scenario_steps self)) name.
Proof.
  unfold add_key. simpl. case_decide.
  - by apply keys_set_present.
  - by apply keys_set_fresh.
Qed.

Lemma run_step_events_returns self
    (events : list (@store value exc_info_t * @StepPassEvent exc_info_t)) r :
  _scenario_result self = Some r ->
  consistent self ->
  exists self',
    run_step_events self events = ([], inr self')
    /\ consistent self'
    /\ _scenario_result self' = Some r
    /\ Py.keys (_scenario_steps self')
       = fold_left add_key (event_names events) (Py.keys (_scenario_steps self)).
Proof.
  revert self. induction events as [|[σ event] events IH]; intros self Hr Hc.
  - exists self. by repeat split.
  - destruct (on_step_end_returns σ self event r Hr Hc) as [delta Hstep].
    destruct (IH (store_delta self (step_name (step_result event)) delta))
      as (self' & Hrun & Hc' & Hr' & Hkeys).
    { done. }
    { apply store_delta_consistent. }
    exists self'. simpl. rewrite Hstep. unfold_M. rewrite Hrun.
    repeat split; [done..|]. by rewrite Hkeys, keys_store_delta.
Qed.

Lemma fold_add_key_fresh (names ks : list string) :
  NoDup (ks ++ names) -> fold_left add_key names ks = ks ++ names.
Proof.
  revert ks. induction names as [|n names IH]; intros ks Hnd; simpl.
  - by rewrite app_nil_r.
  - assert (n ∉ ks) as Hn.
    { apply NoDup_app in Hnd as (_ & Hdis & _). intros Hin.
      apply (Hdis n Hin). left. }
    unfold add_key at 2. rewrite decide_False by done.
    rewrite IH; [by rewrite <- app_assoc|]. by rewrite <- app_assoc.
Qed.

(** C6: after the step-end events of a scenario with N steps of distinct
    names, fired after the scenario started, the step-to-delta mapping has
    exactly N entries, keyed by the step names in call order. *)
Theorem C6_one_entry_per_step (verbosity : Z) (r : ref)
    (events : list (@store value exc_info_t * @StepPassEvent exc_info_t)) :
  NoDup (event_names events) ->
  exists self',
    run_step_events (started verbosity r) events = ([], inr self')
    /\ Py.keys (_scenario_steps self') = event_names events
    /\ length (_scenario_steps self') = length events.
Proof.
  intros Hnd.
  destruct (run_step_events_returns (started verbosity r) events r)
    as (self' & Hrun & _ & _ & Hkeys); [done | done |].
  simpl in Hkeys. rewrite fold_add_key_fresh in Hkeys by done. simpl in Hkeys.
  exists self'. repeat split; [done..|].
  transitivity (length (Py.keys (_scenario_steps self'))).
  - unfold Py.keys. by rewrite length_fmap.
  - rewrite Hkeys. unfold event_names. by rewrite length_map.
Qed.


(** The delta stored for a step shares no key with the delta of the step
    just before it. *)
Lemma consecutive_deltas_disjoint σ self event r prev d :
  _scenario_result self = Some r ->
  _prev_step_name self = Some prev ->
  delta_of self prev = Some d ->
  exists self' d',
    on_step_end σ self event = ([], inr self')
    /\ delta_of self' (step_name (step_result event)) = Some d'
    /\ d' ## d.
Proof.
  intros Hr Hprev Hd. eexists _, _. split; [by eapply on_step_end_next|].
  unfold delta_of. simpl. rewrite get_set_eq. split; [done|].
  apply disjoint_difference_l1. done.
Qed.

(** C7: at verbosity 0 [on_scenario_fail] prints exactly one line, the
    red [ ✗ <subject>], raises nothing, and prints no section-start or
    section-end sequence. *)
Theorem C7_verbosity_0 σ self event :
  _verbosity self = 0 ->
  on_scenario_fail format_value format_exception σ self event =
    ([Print (" ✗ " +:+ scenario_subject (σ (fail_scenario_result event)))
            (Some red) newline], inr tt)
  /\ forall c, c ∈ printed (on_scenario_fail format_value format_exception σ self event) ->
       ~ is_section_sequence c.
Proof.
  intros Hv.
  assert (on_scenario_fail format_value format_exception σ self event =
    ([Print (" ✗ " +:+ scenario_subject (σ (fail_scenario_result event)))
            (Some red) newline], inr tt)) as Hout.
  { unfold on_scenario_fail. rewrite Hv. by rewrite !decide_False by lia. }
  split; [done|]. rewrite Hout. unfold printed. simpl.
  intros c ->%list_elem_of_singleton [name [(t & b & Heq)|(t & Heq)]]; discriminate.
Qed.

(** *** Step-detail printing *)

Lemma for_each_returns {A} (xs : list A) (body : A -> M unit) (f : A -> console) :
  (forall x, x ∈ xs -> body x = (f x, inr tt)) ->
  for_each xs body = (flat_map f xs, inr tt).
Proof.
  induction xs as [|x xs IH]; intros Hbody; simpl; [done|].
  unfold_M. rewrite Hbody by left. rewrite IH; [done|].
  intros y Hy. apply Hbody. by right.
Qed.

Lemma for_each_raises {A} (pre post : list A) (x : A) (body : A -> M unit)
    (f : A -> console) (out : console) (e : Py.exn) :
  (forall y, y ∈ pre -> body y = (f y, inr tt)) ->
  body x = (out, inl e) ->
  for_each (pre ++ x :: post) body = (flat_map f pre ++ out, inl e).
Proof.
  intros Hpre Hx. induction pre as [|y pre IH]; simpl.
  - unfold_M. by rewrite Hx.
  - unfold_M. rewrite Hpre by left. rewrite IH; [by rewrite app_assoc|].
    intros z Hz. apply Hpre. by right.
Qed.

Lemma code_scope sr :
  (if scope_truthy (scope sr) then default [] (scope sr) else []) = final_scope sr.
Proof. unfold final_scope. by destruct (scope sr) as [[|? ?]|]. Qed.

Lemma print_step_scope_recorded self sr s delta :
  delta_of self (step_name s) = Some delta ->
  print_step_scope format_value self sr s = (scope_lines format_value delta sr, inr tt).
Proof.
  intros Hd. unfold print_step_scope, scope_lines, delta_of in *. rewrite code_scope.
  apply for_each_returns. intros [key val] _. rewrite Hd. simpl.
  by case_decide.
Qed.

Lemma print_step_scope_empty self sr s :
  final_scope sr = [] ->
  print_step_scope format_value self sr s = ([], inr tt).
Proof. intros He. unfold print_step_scope. by rewrite code_scope, He. Qed.

Lemma print_step_scope_missing self sr s :
  delta_of self (step_name s) = None ->
  final_scope sr ≠ [] ->
  print_step_scope format_value self sr s = ([], inl (Py.KeyError (step_name s))).
Proof.
  intros Hd Hne. unfold print_step_scope, delta_of in *. rewrite code_scope.
  destruct (final_scope sr) as [|[key val] rest]; [done|].
  simpl. unfold_M. by rewrite Hd.
Qed.

Lemma is_printed_section_name s :
  is_printed s = true <-> is_Some (section_name_of s).
Proof.
  unfold is_printed, section_name_of.
  destruct (is_passed s), (is_failed s); simpl;
    split; eauto; try done; by intros [? ?].
Qed.

Lemma print_step_skipped self sr s :
  section_name_of s = None ->
  print_step format_value self sr s = ([], inr tt).
Proof. intros Hn. unfold print_step. by rewrite Hn. Qed.

(** How [print_step] depends on the loop over the scope. *)
Lemma print_step_unfold self sr s name :
  section_name_of s = Some name ->
  print_step format_value self sr s =
    let m := print_step_scope format_value self sr s in
    (start_call name (whole_seconds (started_at s))
       :: printed m
       ++ match outcome m with
          | inr _ => [end_call name (whole_seconds (ended_at s))]
          | inl _ => []
          end,
     outcome m).
Proof.
  intros Hn. unfold print_step. rewrite Hn, !timestamp_whole_seconds.
  unfold _print_section_start, _print_section_end. unfold_M. simpl.
  destruct (print_step_scope format_value self sr s) as [out [e|[]]]; simpl.
  - by rewrite app_nil_r.
  - done.
Qed.

Lemma print_step_complete self sr s :
  is_Some (delta_of self (step_name s)) \/ final_scope sr = [] ->
  print_step format_value self sr s = (block format_value self sr s, inr tt).
Proof.
  intros Hok. unfold block.
  destruct (section_name_of s) as [name|] eqn:Hn; [|by apply print_step_skipped].
  rewrite (print_step_unfold _ _ _ name Hn).
  destruct (delta_of self (step_name s)) as [delta|] eqn:Hd.
  - by rewrite (print_step_scope_recorded _ _ _ delta Hd).
  - destruct Hok as [[? ?]|He]; [done|].
    rewrite (print_step_scope_empty _ _ _ He). unfold scope_lines. by rewrite He.
Qed.

Lemma print_step_missing self sr s name :
  section_name_of s = Some name ->
  delta_of self (step_name s) = None ->
  final_scope sr ≠ [] ->
  print_step format_value self sr s =
    ([start_call name (whole_seconds (started_at s))],
     inl (Py.KeyError (step_name s))).
Proof.
  intros Hn Hd Hne. rewrite (print_step_unfold _ _ _ name Hn).
  by rewrite (print_step_scope_missing _ _ _ Hd Hne).
Qed.

Lemma print_steps_complete self sr :
  (forall s, s ∈ step_results sr -> is_printed s = true ->
     is_Some (delta_of self (step_name s)))
  \/ final_scope sr = [] ->
  _print_steps format_value self sr =
    (flat_map (block format_value self sr) (step_results sr), inr tt).
Proof.
  intros Hok. unfold _print_steps. apply for_each_returns. intros s Hs.
  destruct (section_name_of s) as [name|] eqn:Hn.
  - apply print_step_complete. destruct Hok as [Hrec|He]; [left|by right].
    apply Hrec; [done|]. apply is_printed_section_name. by eexists.
  - rewrite print_step_skipped by done. unfold block. by rewrite Hn.
Qed.

(** A run that returns printed the blocks of the steps, in order. *)
Lemma print_steps_returned self sr out :
  _print_steps format_value self sr = (out, inr tt) ->
  out = flat_map (block format_value self sr) (step_results sr).
Proof.
  unfold _print_steps. generalize (step_results sr) as steps.
  intros steps. revert out. induction steps as [|s steps IH]; intros out; simpl.
  - by intros [= <-].
  - unfold_M.
    destruct (print_step format_value self sr s) as [o1 [e|[]]] eqn:Hs; [done|].
    destruct (for_each steps (print_step format_value self sr)) as [o2 r2] eqn:Hrest.
    intros [= <- ->]. rewrite <- (IH o2 eq_refl). f_equal.
    destruct (section_name_of s) as [name|] eqn:Hn.
    + destruct (delta_of self (step_name s)) as [delta|] eqn:Hd.
      * rewrite print_step_complete in Hs by (left; by rewrite Hd). by injection Hs.
      * destruct (final_scope sr) as [|kv rest] eqn:He.
        -- rewrite print_step_complete in Hs by (by right). by injection Hs.
        -- rewrite (print_step_missing _ _ _ name) in Hs; [done..|].
           by rewrite He.
    + rewrite print_step_skipped in Hs by done. unfold block. rewrite Hn.
      by injection Hs.
Qed.

(** *** Pairing of section starts and ends *)














(** *** Scenario failure *)

Lemma on_scenario_fail_steps σ self event :
  _verbosity self = 1 ->
  on_scenario_fail format_value format_exception σ self event =
    let m := _print_steps format_value self (σ (fail_scenario_result event)) in
    (failure_line (σ (fail_scenario_result event)) :: printed m, outcome m).
Proof.
  intros Hv. unfold on_scenario_fail.
  destruct (decide (_verbosity self = 1)) as [_|?]; [|done].
  destruct (decide (_verbosity self > 1)) as [?|_]; [lia|]. unfold_M.
  destruct (_print_steps _ _ _) as [out [e|[]]]; simpl; [done|].
  by rewrite app_nil_r.
Qed.

Lemma on_scenario_fail_exceptions σ self event :
  _verbosity self > 1 ->
  on_scenario_fail format_value format_exception σ self event =
    (failure_line (σ (fail_scenario_result event))
       :: exception_lines format_exception (σ (fail_scenario_result event)), inr tt).
Proof.
  intros Hv. unfold on_scenario_fail.
  destruct (decide (_verbosity self = 1)) as [?|_]; [lia|].
  destruct (decide (_verbosity self > 1)) as [_|?]; [|done]. unfold_M.
  unfold _print_exceptions, exception_lines.
  rewrite (for_each_returns _ _ (fun s => match exc_info s with
     | Some e => [Print (Py.join (format_exception e)) (Some yellow) newline]
     | None => [] end)); [done|].
  intros s _. by destruct (exc_info s).
Qed.



(** C9: for every step that [_print_steps] prints, the section-start
    sequence carries the step's start timestamp truncated to whole seconds
    and the section-end sequence the end timestamp truncated to whole
    seconds, each replaced by 0 when the timestamp is absent. Timestamps
    raise nothing: the step ends the way the loop over the scope ends, and
    a step without timestamps whose delta is recorded is printed in full. *)
Theorem C9_timestamps self sr s name :
  section_name_of s = Some name ->
  let t0 := match started_at s with Some x => truncate x | None => 0 end in
  let t1 := match ended_at s with Some x => truncate x | None => 0 end in
  let m := print_step_scope format_value self sr s in
  print_step format_value self sr s =
    (Print (section_start_text name t0 true) None ""
       :: printed m
       ++ match outcome m with
          | inr _ => [Print (section_end_text name t1) None newline]
          | inl _ => []
          end,
     outcome m)
  /\ (started_at s = None -> ended_at s = None ->
      forall delta, delta_of self (step_name s) = Some delta ->
      print_step format_value self sr s =
        (Print (section_start_text name 0 true) None ""
           :: scope_lines format_value delta sr
           ++ [Print (section_end_text name 0) None newline],
         inr tt)).
Proof.
  intros Hn. split.
  - by apply print_step_unfold.
  - intros H0 H1 delta Hd. rewrite print_step_complete by (left; by rewrite Hd).
    unfold block. by rewrite Hn, Hd, H0, H1.
Qed.

(** C10: [_print_steps] is partial. If the final scope is not empty and
    some passed or failed step has no entry in the step-to-delta mapping,
    the lookup for the first such step raises [KeyError] when that step's
    section start has just been printed, after the complete blocks of the
    steps before it. If every passed or failed step has an entry, or the
    final scope is empty, [_print_steps] returns. *)
Theorem C10_print_steps_partial self sr :
  (forall pre s post,
     step_results sr = pre ++ s :: post ->
     final_scope sr ≠ [] ->
     (forall s', s' ∈ pre -> is_printed s' = true ->
        is_Some (delta_of self (step_name s'))) ->
     is_printed s = true ->
     delta_of self (step_name s) = None ->
     exists name,
       section_name_of s = Some name
       /\ _print_steps format_value self sr =
           (flat_map (block format_value self sr) pre
              ++ [Print (section_start_text name (whole_seconds (started_at s)) true)
                        None ""],
            inl (Py.KeyError (step_name s))))
  /\ ((forall s, s ∈ step_results sr -> is_printed s = true ->
         is_Some (delta_of self (step_name s)))
       \/ final_scope sr = [] ->
      outcome (_print_steps format_value self sr) = inr tt).
Proof.
  split.
  - intros pre s post Hsteps Hne Hpre Hs Hd.
    apply is_printed_section_name in Hs as [name Hn]. exists name. split; [done|].
    unfold _print_steps. rewrite Hsteps.
    apply for_each_raises; [|by apply print_step_missing].
    intros s' Hs'. destruct (section_name_of s') as [name'|] eqn:Hn'.
    + apply print_step_complete. left. apply Hpre; [done|].
      apply is_printed_section_name. by eexists.
    + rewrite print_step_skipped by done. unfold block. by rewrite Hn'.
  - intros Hok. by rewrite print_steps_complete.
Qed.

End Properties.

(** ** Instances on the sample data *)

Lemma C10_witness :
  (exists name : string,
     section_name_of (Sample.step "then" FAILED None None) = Some name
     /\ _print_steps Sample.quote (Sample.reporter 1 [])
          (Sample.scenario [Sample.step "then" FAILED None None] (Some [("key", "val")]))
        = ([Print (section_start_text name 0 true) None ""], inl (Py.KeyError "then")))
  /\ outcome (_print_steps Sample.quote (Sample.reporter 1 [("then", {["key"]})])
        (Sample.scenario [Sample.step "then" FAILED None None] (Some [("key", "val")])))
     = inr tt.
Proof.
  split.
  - apply (proj1 (C10_print_steps_partial Sample.quote (Sample.reporter 1 [])
      (Sample.scenario [Sample.step "then" FAILED None None] (Some [("key", "val")])))
      [] (Sample.step "then" FAILED None None) []).
    + reflexivity.
    + discriminate.
    + intros s' Hs'. by apply elem_of_nil in Hs'.
    + reflexivity.
    + reflexivity.
  - apply (proj2 (C10_print_steps_partial Sample.quote
      (Sample.reporter 1 [("then", {["key"]})])
      (Sample.scenario [Sample.step "then" FAILED None None] (Some [("key", "val")])))).
    left. intros s ->%list_elem_of_singleton _. by eexists.
Defined.

(** A failed step with no recorded delta, in a scenario without scope:
    [_print_steps] prints its section and returns. *)
Lemma C10_counterexample :
  let self := Sample.reporter 1 [] in
  let s := Sample.step "then" FAILED (Some 1%Q) (Some 3%Q) in
  let sr := Sample.scenario [s] None in
  s ∈ step_results sr
  /\ is_failed s = true
  /\ delta_of self (step_name s) = None
  /\ _print_steps Sample.quote self sr =
       ([Print (section_start_text "    ✗ then" 1 true) None "";
         Print (section_end_text "    ✗ then" 3) None newline], inr tt).
Proof.
  simpl. repeat split.
  - apply list_elem_of_singleton. reflexivity.
Qed.

Lemma C9_witness :
  print_step Sample.quote (Sample.reporter 1 [("then", {["key"]})])
    (Sample.scenario [Sample.step "then" FAILED (Some (3 # 2)) None] (Some [("key", "val")]))
    (Sample.step "then" FAILED (Some (3 # 2)) None)
  = ([Print (section_start_text "    ✗ then" 1 true) None "";
      Print "       key: " (Some blue) newline;
      Print (Sample.quote "val") None newline;
      Print (section_end_text "    ✗ then" 0) None newline], inr tt).
Proof.
  etransitivity.
  - apply (proj1 (C9_timestamps Sample.quote (Sample.reporter 1 [("then", {["key"]})])
      (Sample.scenario [Sample.step "then" FAILED (Some (3 # 2)) None] (Some [("key", "val")]))
      (Sample.step "then" FAILED (Some (3 # 2)) None) "    ✗ then" eq_refl)).
  - vm_compute. reflexivity.
Defined.

Lemma C3_witness :
  exists self',
    on_step_end (Sample.σ_of (Sample.scenario [] (Some Sample.key_val)))
      (Sample.reporter 1 []) {| step_result := Sample.then_step |} = ([], inr self')
    /\ _prev_step_name self' = Some "then"
    /\ delta_of self' "then" = Some (Py.key_set Sample.key_val).
Proof.
  destruct (C3_on_step_end (Sample.σ_of (Sample.scenario [] (Some Sample.key_val)))
              (Sample.reporter 1 []) {| step_result := Sample.then_step |} 0%nat eq_refl I)
    as (self' & Hrun & _ & Hfirst & _ & Hprev).
  exists self'. split; [exact Hrun|]. split; [exact Hprev|].
  exact (proj1 (Hfirst eq_refl)).
Defined.

Lemma growing_names_NoDup : NoDup (event_names Sample.growing).
Proof. apply (bool_decide_unpack _). vm_compute. exact I. Defined.

Lemma C6_witness :
  exists self',
    run_step_events (started 1 0%nat) Sample.growing = ([], inr self')
    /\ Py.keys (_scenario_steps self') = ["given"; "when"; "then"]
    /\ length (_scenario_steps self') = 3%nat.
Proof.
  exact (C6_one_entry_per_step 1 0%nat Sample.growing growing_names_NoDup).
Defined.

Lemma C7_witness :
  on_scenario_fail Sample.quote Sample.format_exception Sample.timed_failed
    (Sample.reporter 0 []) Sample.fail
  = ([Print " ✗ subject" (Some red) newline], inr tt).
Proof.
  exact (proj1 (C7_verbosity_0 Sample.quote Sample.format_exception Sample.timed_failed
                  (Sample.reporter 0 []) Sample.fail eq_refl)).
Defined.









(** ** Attribution over three steps *)

(** C1, on the code: three steps that add the variables [a], [b] and [c]
    in turn. The delta of the third step is the scope minus the delta of
    the second step only, so it takes [a] again: the deltas of the first
    and the third step overlap, and [a] is attributed to two steps. *)
Theorem C1_deltas_overlap :
  exists self d1 d2 d3,
    run_step_events (started 1 0%nat) Sample.growing = ([], inr self)
    /\ delta_of self "given" = Some d1
    /\ delta_of self "when" = Some d2
    /\ delta_of self "then" = Some d3
    /\ elements d1 = ["a"]
    /\ elements d2 = ["b"]
    /\ ("a" ∈ d3) /\ ("b" ∉ d3) /\ ("c" ∈ d3)
    /\ ~ (d1 ## d3).
Proof.
  eexists _, _, _, _. split; [vm_compute; reflexivity|].
  do 3 (split; [reflexivity|]).
  split; [vm_compute; reflexivity|]. split; [vm_compute; reflexivity|].
  assert (forall (k : string) (d : gset string), bool_decide (k ∈ d) = true -> k ∈ d) as Hin
    by (intros k d; apply bool_decide_eq_true_1).
  split; [by apply Hin; vm_compute|].
  split; [apply (bool_decide_unpack _); by vm_compute|].
  split; [by apply Hin; vm_compute|].
  intros Hdis. apply (Hdis "a"); by apply Hin; vm_compute.
Qed.

(** * Further properties of the handlers *)

Section Handlers.

Context {value exc_info_t : Type}.
Variable format_value : value -> string.
Variable format_exception : exc_info_t -> list string.
Variable super_on_scenario_run : ref -> M unit.

Implicit Types (σ : @store value exc_info_t) (self : GitlabReporter).
Implicit Types (sr : @ScenarioResult value exc_info_t) (s : @StepResult exc_info_t).

(** ** Scenario start *)


(** ** Step events *)

(** Without a running scenario a step event fails the assertion: a run of
    step events on such a reporter stops at the first one, with nothing
    printed. *)
Theorem step_end_needs_scenario self
    (events : list (@store value exc_info_t * @StepPassEvent exc_info_t)) :
  _scenario_result self = None ->
  events ≠ [] ->
  run_step_events self events = ([], inl Py.AssertionError).
Proof.
  intros Hnone Hne. destruct events as [|[σ event] events]; [done|].
  simpl. unfold on_step_end. rewrite Hnone. by unfold_M.
Qed.

Lemma reachable_consistent self :
  reachable (value := value) (exc_info_t := exc_info_t) super_on_scenario_run self ->
  consistent self.
Proof.
  induction 1 as [v|self event out self' _ _ Hrun|σ self event out self' _ IH Hstep].
  - done.
  - unfold on_scenario_run in Hrun. unfold_M.
    destruct (super_on_scenario_run _) as [o [e|[]]]; [done|].
    by injection Hrun as _ <-.
  - destruct (_scenario_result self) as [r|] eqn:Hr.
    + destruct (on_step_end_returns σ self event r Hr IH) as [delta Hd].
      rewrite Hd in Hstep. injection Hstep as _ <-. apply store_delta_consistent.
    + unfold on_step_end in Hstep. by rewrite Hr in Hstep.
Qed.

(** In every state a reporter can reach, the previous-step pointer names a
    recorded step, so the lookup of the previous delta in [on_step_end]
    never raises [KeyError]: a step event either returns, printing nothing,
    or fails the assertion because no scenario is running. *)
Theorem step_end_never_KeyError σ self (event : StepPassEvent) :
  reachable (value := value) (exc_info_t := exc_info_t) super_on_scenario_run self ->
  consistent self
  /\ ((exists self', on_step_end σ self event = ([], inr self'))
      \/ (_scenario_result self = None
          /\ on_step_end σ self event = ([], inl Py.AssertionError))).
Proof.
  intros Hreach. pose proof (reachable_consistent self Hreach) as Hc.
  split; [done|].
  destruct (_scenario_result self) as [r|] eqn:Hr.
  - left. destruct (on_step_end_returns σ self event r Hr Hc) as [delta Hd]. eauto.
  - right. split; [done|]. unfold on_step_end. by rewrite Hr.
Qed.

(** The delta stored for a step that has a predecessor holds keys of the
    current scope only, shares none with the predecessor's delta, and
    together with it covers the current scope. *)
Theorem delta_against_previous σ self event r prev d :
  _scenario_result self = Some r ->
  _prev_step_name self = Some prev ->
  delta_of self prev = Some d ->
  exists self' d',
    on_step_end σ self event = ([], inr self')
    /\ delta_of self' (step_name (step_result event)) = Some d'
    /\ d' ⊆ scope_keys (σ r)
    /\ d' ## d
    /\ scope_keys (σ r) ⊆ d' ∪ d.
Proof.
  intros Hr Hprev Hd. eexists _, _. split; [by eapply on_step_end_next|].
  unfold delta_of. simpl. rewrite get_set_eq. split; [done|].
  split; [by intros k [Hk _]%elem_of_difference|].
  split; [by apply disjoint_difference_l1|].
  intros k Hk. apply elem_of_union. destruct (decide (k ∈ d)); [by right|left].
  by apply elem_of_difference.
Qed.

(** ** Attribution over a scenario *)

Lemma run_three_steps (verbosity : Z) (r : ref) σ1 σ2 σ3 (e1 e2 e3 : StepPassEvent) :
  run_step_events (started verbosity r) [(σ1, e1); (σ2, e2); (σ3, e3)] =
    ([], inr (store_delta
                (store_delta
                   (store_delta (started verbosity r)
                      (step_name (step_result e1)) (scope_keys (σ1 r)))
                   (step_name (step_result e2))
                   (scope_keys (σ2 r) ∖ scope_keys (σ1 r)))
                (step_name (step_result e3))
                (scope_keys (σ3 r) ∖ (scope_keys (σ2 r) ∖ scope_keys (σ1 r))))).
Proof.
  cbn [run_step_events]. rewrite (on_step_end_first σ1 _ e1 r) by done. unfold_M.
  erewrite (on_step_end_next σ2 _ e2 r); [|done|done|].
  2:{ unfold delta_of. simpl. by rewrite decide_True. }
  erewrite (on_step_end_next σ3 _ e3 r); [done|done|done|].
  unfold delta_of. cbn [_scenario_steps store_delta]. apply get_set_eq.
Qed.

Lemma run_two_steps (verbosity : Z) (r : ref) σ1 σ2 (e1 e2 : StepPassEvent) :
  run_step_events (started verbosity r) [(σ1, e1); (σ2, e2)] =
    ([], inr (store_delta
                (store_delta (started verbosity r)
                   (step_name (step_result e1)) (scope_keys (σ1 r)))
                (step_name (step_result e2))
                (scope_keys (σ2 r) ∖ scope_keys (σ1 r)))).
Proof.
  cbn [run_step_events]. rewrite (on_step_end_first σ1 _ e1 r) by done. unfold_M.
  erewrite (on_step_end_next σ2 _ e2 r); [done|done|done|].
  unfold delta_of. simpl. by rewrite decide_True.
Qed.

(** In a scenario of two steps with different names whose scope only
    grows, the attribution is exact: the first step gets the keys present
    after it, the second the keys that are new, the two deltas are
    disjoint and together they are the final scope. *)
Theorem two_step_attribution (verbosity : Z) (r : ref) σ1 σ2 (e1 e2 : StepPassEvent) :
  step_name (step_result e1) ≠ step_name (step_result e2) ->
  scope_keys (σ1 r) ⊆ scope_keys (σ2 r) ->
  exists self d2,
    run_step_events (started verbosity r) [(σ1, e1); (σ2, e2)] = ([], inr self)
    /\ delta_of self (step_name (step_result e1)) = Some (scope_keys (σ1 r))
    /\ delta_of self (step_name (step_result e2)) = Some d2
    /\ (forall k, k ∈ d2 <-> k ∈ scope_keys (σ2 r) /\ k ∉ scope_keys (σ1 r))
    /\ scope_keys (σ1 r) ## d2
    /\ scope_keys (σ1 r) ∪ d2 = scope_keys (σ2 r).
Proof.
  intros Hne Hsub. eexists _, _. split; [apply run_two_steps|].
  unfold delta_of. cbn [_scenario_steps store_delta started].
  rewrite get_set_eq.
  rewrite (get_set_ne _ (step_name (step_result e2)) (step_name (step_result e1)))
    by congruence.
  rewrite get_set_eq.
  do 2 (split; [done|]). split; [intros k; apply elem_of_difference|].
  split; [symmetry; apply disjoint_difference_l1; done|].
  apply set_eq. intros k. rewrite elem_of_union, elem_of_difference.
  split.
  - intros [Hk|[Hk _]]; [by apply Hsub | done].
  - intros Hk. destruct (decide (k ∈ scope_keys (σ1 r))); [by left | by right].
Qed.

(** From the third step on the attribution is no longer exact. In a
    scenario of three steps with different names whose scope only grows,
    the third step gets the keys that are new and, again, every key of the
    first step: its delta is disjoint from the first one only if the first
    step left no variable. *)
Theorem three_step_attribution (verbosity : Z) (r : ref) σ1 σ2 σ3
    (e1 e2 e3 : StepPassEvent) :
  NoDup [step_name (step_result e1); step_name (step_result e2);
         step_name (step_result e3)] ->
  scope_keys (σ1 r) ⊆ scope_keys (σ2 r) ->
  scope_keys (σ2 r) ⊆ scope_keys (σ3 r) ->
  exists self d3,
    run_step_events (started verbosity r) [(σ1, e1); (σ2, e2); (σ3, e3)]
      = ([], inr self)
    /\ delta_of self (step_name (step_result e1)) = Some (scope_keys (σ1 r))
    /\ delta_of self (step_name (step_result e2))
       = Some (scope_keys (σ2 r) ∖ scope_keys (σ1 r))
    /\ delta_of self (step_name (step_result e3)) = Some d3
    /\ (forall k, k ∈ d3 <->
          (k ∈ scope_keys (σ3 r) /\ k ∉ scope_keys (σ2 r)) \/ k ∈ scope_keys (σ1 r))
    /\ (scope_keys (σ1 r) ## d3 <-> scope_keys (σ1 r) = ∅).
Proof.
  intros Hnd H12 H23.
  apply NoDup_cons in Hnd as [Hn1 Hnd]. apply NoDup_cons in Hnd as [Hn2 _].
  apply not_elem_of_cons in Hn1 as [Hn12 Hn13].
  apply not_elem_of_cons in Hn13 as [Hn13 _].
  apply not_elem_of_cons in Hn2 as [Hn23 _].
  assert (forall k, k ∈ scope_keys (σ3 r) ∖ (scope_keys (σ2 r) ∖ scope_keys (σ1 r)) <->
            (k ∈ scope_keys (σ3 r) /\ k ∉ scope_keys (σ2 r)) \/ k ∈ scope_keys (σ1 r))
    as Hd3.
  { intros k. rewrite !elem_of_difference. split.
    - intros [H3 Hn]. destruct (decide (k ∈ scope_keys (σ1 r))); [by right|].
      left. split; [done|]. intros H2. by apply Hn.
    - intros [[H3 Hn2]|H1].
      + split; [done|]. by intros [H2 _].
      + split; [by apply H23, H12|]. by intros [_ Hn1]. }
  eexists _, _. split; [apply run_three_steps|].
  unfold delta_of. cbn [_scenario_steps store_delta started].
  rewrite !get_set_eq.
  rewrite (get_set_ne _ (step_name (step_result e3)) (step_name (step_result e1)))
    by congruence.
  rewrite (get_set_ne _ (step_name (step_result e2)) (step_name (step_result e1)))
    by congruence.
  rewrite (get_set_ne _ (step_name (step_result e3)) (step_name (step_result e2)))
    by congruence.
  rewrite !get_set_eq.
  do 3 (split; [done|]). split; [exact Hd3|].
  split.
  - intros Hdis. apply set_eq. intros k. split; [|by intros ?%not_elem_of_empty].
    intros Hk. destruct (Hdis k Hk). apply Hd3. by right.
  - intros ->. by intros k ?%not_elem_of_empty.
Qed.

Lemma fold_add_key_spec (names ks : list string) :
  NoDup ks ->
  NoDup (fold_left add_key names ks)
  /\ (forall k, k ∈ fold_left add_key names ks <-> k ∈ ks \/ k ∈ names)
  /\ (length (fold_left add_key names ks) <= length ks + length names)%nat.
Proof.
  revert ks. induction names as [|n names IH]; intros ks Hnd; simpl.
  - split; [done|]. split; [|lia]. intros k. split; [by left|].
    intros [?|?%elem_of_nil]; done.
  - assert (NoDup (add_key ks n)) as Hnd'.
    { unfold add_key. case_decide; [done|].
      apply NoDup_app. split; [done|]. split; [|apply NoDup_singleton].
      intros k Hk ->%list_elem_of_singleton. done. }
    assert (forall k, k ∈ add_key ks n <-> k ∈ ks \/ k = n) as Hin.
    { intros k. unfold add_key. case_decide.
      - split; [by left|]. intros [?| ->]; done.
      - rewrite elem_of_app, list_elem_of_singleton. done. }
    assert (length (add_key ks n) <= S (length ks))%nat as Hlen.
    { unfold add_key. case_decide; [lia|]. rewrite length_app. simpl. lia. }
    destruct (IH (add_key ks n) Hnd') as (H1 & H2 & H3).
    split; [done|]. split; [|lia].
    intros k. rewrite H2, Hin, elem_of_cons. tauto.
Qed.

(** Whatever the step names, repeated or not, the mapping after the step
    events of a scenario has one entry per distinct step name and no
    other: its keys have no duplicates and are the names of the events, so
    it has at most as many entries as there were events. A step event for
    a name already present writes over its entry. *)
Theorem one_entry_per_distinct_name (verbosity : Z) (r : ref)
    (events : list (@store value exc_info_t * @StepPassEvent exc_info_t)) :
  exists self,
    run_step_events (started verbosity r) events = ([], inr self)
    /\ NoDup (Py.keys (_scenario_steps self))
    /\ (forall name, name ∈ Py.keys (_scenario_steps self) <-> name ∈ event_names events)
    /\ (forall name, is_Some (delta_of self name) <-> name ∈ event_names events)
    /\ (length (_scenario_steps self) <= length events)%nat.
Proof.
  destruct (run_step_events_returns (started verbosity r) events r)
    as (self & Hrun & _ & _ & Hkeys); [done | done |].
  destruct (fold_add_key_spec (event_names events) []) as (Hnd & Hin & Hlen);
    [constructor|].
  simpl in Hkeys. rewrite <- Hkeys in Hnd, Hin, Hlen.
  assert (forall name, name ∈ Py.keys (_scenario_steps self) <-> name ∈ event_names events)
    as Hin'.
  { intros name. rewrite Hin. split; [|by right]. intros [?%elem_of_nil|?]; done. }
  exists self. split; [done|]. split; [done|]. split; [done|].
  split.
  - intros name. unfold delta_of. by rewrite get_Some_keys.
  - unfold Py.keys in Hlen. rewrite length_fmap in Hlen.
    unfold event_names in Hlen. rewrite length_map in Hlen. simpl in Hlen. lia.
Qed.

(** ** Exception printing *)

Lemma print_exceptions_returns sr :
  _print_exceptions format_exception sr = (exception_lines format_exception sr, inr tt).
Proof.
  unfold _print_exceptions, exception_lines. apply for_each_returns.
  intros s _. by destruct (exc_info s).
Qed.

(** [_print_exceptions] never raises, whatever the status of the steps: it
    prints one yellow call per step that carries exception information, in
    the order of the steps, and nothing for the others. *)
Theorem print_exceptions_total sr :
  _print_exceptions format_exception sr =
    ((fun e => Print (Py.join (format_exception e)) (Some yellow) newline)
       <$> omap exc_info (step_results sr),
     inr tt)
  /\ length (printed (_print_exceptions format_exception sr))
     = length (raised_steps (step_results sr)).
Proof.
  rewrite print_exceptions_returns. unfold exception_lines, raised_steps, printed.
  cbn [fst].
  induction (step_results sr) as [|s steps [IH1 IH2]]; [done|].
  injection IH1 as IH1. simpl.
  destruct (exc_info s) as [e|] eqn:He; simpl.
  - rewrite filter_cons_True by (by rewrite He).
    split; [by rewrite IH1 | simpl; by rewrite IH2].
  - rewrite filter_cons_False by (rewrite He; by intros [? ?]).
    split; [by rewrite IH1 | done].
Qed.

(** ** Scenario failure *)

(** [on_scenario_fail] always prints the red failure line first, and after
    it at most one block: the step sections at verbosity 1, the tracebacks
    above 1, nothing below 1. It ends the way the block ends. *)
Theorem scenario_fail_blocks σ self event :
  let sr := σ (fail_scenario_result event) in
  let m := on_scenario_fail format_value format_exception σ self event in
  exists rest,
    printed m = Print (" ✗ " +:+ scenario_subject sr) (Some red) newline :: rest
    /\ ((_verbosity self = 1
         /\ rest = printed (_print_steps format_value self sr)
         /\ outcome m = outcome (_print_steps format_value self sr))
        \/ (_verbosity self > 1
            /\ rest = printed (_print_exceptions format_exception sr)
            /\ outcome m = inr tt)
        \/ (_verbosity self < 1 /\ rest = [] /\ outcome m = inr tt)).
Proof.
  intros sr m. subst m.
  destruct (Z.lt_trichotomy (_verbosity self) 1) as [Hlt|[Heq|Hgt]].
  - eexists. split; [|right; right; split; [done|]].
    + unfold on_scenario_fail.
      destruct (decide (_verbosity self = 1)) as [?|_]; [lia|].
      destruct (decide (_verbosity self > 1)) as [?|_]; [lia|]. done.
    + unfold on_scenario_fail.
      destruct (decide (_verbosity self = 1)) as [?|_]; [lia|].
      destruct (decide (_verbosity self > 1)) as [?|_]; [lia|]. done.
  - rewrite on_scenario_fail_steps by done. eexists. split; [done|]. by left.
  - rewrite on_scenario_fail_exceptions by lia. eexists. split; [done|].
    right; left. split; [lia|].
    by rewrite print_exceptions_returns.
Qed.






(** ** Step-detail printing *)

Lemma for_each_filter {A} (P : A -> Prop) `{forall x, Decision (P x)}
    (xs : list A) (body : A -> M unit) :
  (forall x, ~ P x -> body x = ([], inr tt)) ->
  for_each (filter P xs) body = for_each xs body.
Proof.
  intros Hskip. induction xs as [|x xs IH]; [done|].
  destruct (decide (P x)) as [Hx|Hx].
  - rewrite filter_cons_True by done. cbn [for_each]. by rewrite IH.
  - rewrite filter_cons_False by done. cbn [for_each]. rewrite IH, Hskip by done.
    unfold_M. by destruct (for_each xs body).
Qed.

(** Steps that are neither passed nor failed do not count for
    [_print_steps]: with or without them in the step results it prints the
    same and ends the same, also when such a step has no recorded delta. *)
Theorem pending_steps_ignored self sr :
  _print_steps format_value self (only_printed sr) = _print_steps format_value self sr.
Proof.
  unfold _print_steps.
  change (print_step format_value self (only_printed sr))
    with (print_step format_value self sr).
  change (step_results (only_printed sr)) with (printed_steps sr).
  unfold printed_steps. apply for_each_filter.
  intros s Hs. apply print_step_skipped.
  destruct (section_name_of s) eqn:Hn; [|done].
  destruct Hs. apply is_printed_section_name. by eexists.
Qed.

Lemma key_line_inj (k k' : string) : key_line k = key_line k' -> k = k'.
Proof.
  unfold key_line. intros Heq. apply (f_equal text) in Heq. simpl in Heq.
  apply (inj (String.append "       ")) in Heq.
  by apply string_app_inv_tail in Heq.
Qed.

Lemma key_line_in_scope_lines delta sr (k : string) :
  key_line k ∈ scope_lines format_value delta sr
  <-> k ∈ delta /\ k ∈ Py.keys (final_scope sr).
Proof.
  unfold scope_lines. split.
  - intros (kv & Hkv & Hin)%list_elem_of_In%in_flat_map. apply list_elem_of_In in Hin.
    case_decide as Hd; [|by apply elem_of_nil in Hin].
    unfold var_lines in Hin. apply elem_of_cons in Hin as [Heq|Hin].
    + apply key_line_inj in Heq as ->. split; [done|].
      unfold format_scope in Hkv. apply in_map_iff in Hkv as ([key val] & <- & Hkv).
      unfold Py.keys. apply list_elem_of_fmap. exists (key, val).
      split; [done | by apply list_elem_of_In].
    + apply list_elem_of_singleton in Hin. discriminate.
  - intros [Hd Hk]. unfold Py.keys in Hk.
    apply list_elem_of_fmap in Hk as ([key val] & -> & Hkv).
    apply list_elem_of_In, in_flat_map.
    exists (key, format_value val). split.
    + unfold format_scope. apply in_map_iff. exists (key, val).
      split; [done | by apply list_elem_of_In].
    + simpl. rewrite decide_True by done. by left.
Qed.

(** When [_print_steps] returns, the variables it has printed are those
    of the final scope whose key is in the delta recorded for some passed
    or failed step of the scenario. A variable of the final scope whose
    key is in no such delta is not printed at all. *)
Theorem variable_printed_iff self sr out (k : string) :
  _print_steps format_value self sr = (out, inr tt) ->
  Print ("       " +:+ k +:+ ": ") (Some blue) newline ∈ out
  <-> k ∈ Py.keys (final_scope sr)
      /\ exists s delta,
           s ∈ step_results sr
           /\ is_printed s = true
           /\ delta_of self (step_name s) = Some delta
           /\ k ∈ delta.
Proof.
  intros Hrun. rewrite (print_steps_returned _ self sr out Hrun).
  fold (key_line k). split.
  - intros (s & Hs & Hin)%list_elem_of_In%in_flat_map.
    apply list_elem_of_In in Hs, Hin. unfold block in Hin.
    destruct (section_name_of s) as [name|] eqn:Hn; [|by apply elem_of_nil in Hin].
    apply elem_of_cons in Hin as [Heq|Hin]; [discriminate|].
    apply elem_of_app in Hin as [Hin|Hin];
      [|apply list_elem_of_singleton in Hin; discriminate].
    apply key_line_in_scope_lines in Hin as [Hd Hk]. split; [done|].
    destruct (delta_of self (step_name s)) as [delta|] eqn:Hdelta;
      [|by apply not_elem_of_empty in Hd].
    exists s, delta. split; [done|]. split; [|done]. apply is_printed_section_name.
    by eexists.
  - intros (Hk & s & delta & Hs & Hp & Hdelta & Hd).
    apply list_elem_of_In, in_flat_map.
    exists s. split; [by apply list_elem_of_In|]. apply list_elem_of_In.
    apply is_printed_section_name in Hp as [name Hn]. unfold block. rewrite Hn, Hdelta.
    right. apply elem_of_app. left. by apply key_line_in_scope_lines.
Qed.




End Handlers.

(** ** The control sequences and their timestamps *)

(** The control sequences can be read back without ambiguity: a
    section-start sequence determines its name, its timestamp and its
    collapsed flag, a section-end sequence its name and its timestamp, and
    no section-start sequence is a section-end sequence. *)
Theorem section_texts_unambiguous (n n' : string) (t t' : Z) (b b' : bool) :
  (section_start_text n t b = section_start_text n' t' b' -> n = n' /\ t = t' /\ b = b')
  /\ (section_end_text n t = section_end_text n' t' -> n = n' /\ t = t')
  /\ section_start_text n t b ≠ section_end_text n' t'.
Proof.
  split; [|split].
  - intros Heq. pose proof (section_start_text_inj _ _ _ _ _ _ Heq) as <-.
    unfold section_start_text in Heq.
    apply (inj (String.append ESC)), (inj (String.append "[0Ksection_start:")) in Heq.
    apply (colon_split _ _
             (n +:+ "[collapsed=" +:+ (if b then "true" else "false")
                +:+ "]" +:+ CR +:+ ESC +:+ "[0K")
             (n +:+ "[collapsed=" +:+ (if b' then "true" else "false")
                +:+ "]" +:+ CR +:+ ESC +:+ "[0K"))
      in Heq as [Ht Heq]; [|apply str_colon_free..].
    split; [done|]. split; [by apply (inj pretty) in Ht|].
    apply (inj (String.append n)), (inj (String.append "[collapsed=")) in Heq.
    destruct b, b'; try done; vm_compute in Heq; discriminate.
  - intros Heq. pose proof (section_end_text_inj _ _ _ _ Heq) as <-.
    unfold section_end_text in Heq.
    apply (inj (String.append ESC)), (inj (String.append "[0Ksection_end:")) in Heq.
    apply (colon_split _ _ (n +:+ CR +:+ ESC +:+ "[0K") (n +:+ CR +:+ ESC +:+ "[0K"))
      in Heq as [Ht _]; [|apply str_colon_free..].
    split; [done|]. by apply (inj pretty) in Ht.
  - unfold section_start_text, section_end_text. intros Heq.
    apply (inj (String.append ESC)), (inj (String.append "[0Ksection_")) in Heq.
    discriminate.
Qed.

Lemma timestamp_int (x : Q) : timestamp (Some x) = Py.int x.
Proof. rewrite timestamp_whole_seconds. simpl. by rewrite int_truncate. Qed.

(** The timestamp put in a control sequence is the step's timestamp
    rounded toward zero, less than a second away from it. A timestamp
    strictly between -1 and 1 second is printed as 0, like a missing one. *)
Theorem timestamp_toward_zero (x : Q) :
  ((0 <= x)%Q ->
     (inject_Z (timestamp (Some x)) <= x)%Q /\ (x < inject_Z (timestamp (Some x) + 1))%Q)
  /\ ((x <= 0)%Q ->
      (inject_Z (timestamp (Some x) - 1) < x)%Q /\ (x <= inject_Z (timestamp (Some x)))%Q)
  /\ (timestamp (Some x) = 0 <-> (-1 < x)%Q /\ (x < 1)%Q)
  /\ timestamp None = 0.
Proof.
  rewrite timestamp_int. destruct x as [n d]. unfold Py.int, Qle, Qlt. simpl.
  pose proof (Z.quot_rem' n (Z.pos d)) as Hqr.
  split; [|split; [|split; [|done]]].
  - intros Hn. pose proof (Z.rem_bound_pos n (Z.pos d)) as Hr. nia.
  - intros Hn. pose proof (Z.rem_bound_pos (- n) (Z.pos d)) as Hr.
    rewrite Z.rem_opp_l' in Hr. nia.
  - rewrite Z.quot_small_iff by done. lia.
Qed.

(** ** Instances of the further properties on the sample data *)

Lemma step_end_needs_scenario_witness :
  run_step_events (init 1) Sample.one_step_events = ([], inl Py.AssertionError).
Proof. apply step_end_needs_scenario; [reflexivity | discriminate]. Defined.

Lemma step_end_never_KeyError_witness :
  consistent (started 1 0%nat)
  /\ ((exists self',
         on_step_end (Sample.σ_of (Sample.scenario [] (Some Sample.key_val)))
           (started 1 0%nat) {| step_result := Sample.then_step |} = ([], inr self'))
      \/ (_scenario_result (started 1 0%nat) = None
          /\ on_step_end (Sample.σ_of (Sample.scenario [] (Some Sample.key_val)))
               (started 1 0%nat) {| step_result := Sample.then_step |}
             = ([], inl Py.AssertionError))).
Proof.
  apply (step_end_never_KeyError (fun _ : ref => mret tt)).
  apply (reachable_scenario_run _ (init 1) {| run_scenario_result := 0%nat |} []
           (started 1 0%nat)).
  - apply reachable_init.
  - reflexivity.
Defined.

Lemma delta_against_previous_witness :
  exists self' d',
    on_step_end (Sample.σ_of (Sample.scenario [] (Some [("a", "1"); ("b", "2")])))
      {| _verbosity := 1; _scenario_result := Some 0%nat;
         _scenario_steps := [("given", {["a"]})]; _prev_step_name := Some "given" |}
      {| step_result := Sample.step "when" PASSED None None |} = ([], inr self')
    /\ delta_of self' "when" = Some d'
    /\ d' ⊆ Py.key_set [("a", "1"); ("b", "2")]
    /\ d' ## {["a"]}
    /\ Py.key_set [("a", "1"); ("b", "2")] ⊆ d' ∪ {["a"]}.
Proof.
  exact (delta_against_previous
           (Sample.σ_of (Sample.scenario [] (Some [("a", "1"); ("b", "2")])))
           {| _verbosity := 1; _scenario_result := Some 0%nat;
              _scenario_steps := [("given", {["a"]})]; _prev_step_name := Some "given" |}
           {| step_result := Sample.step "when" PASSED None None |}
           0%nat "given" {["a"]} eq_refl eq_refl eq_refl).
Defined.

Lemma growing_scopes :
  Py.key_set [("a", "1")] ⊆ Py.key_set [("a", "1"); ("b", "2")]
  /\ Py.key_set [("a", "1"); ("b", "2")] ⊆ Py.key_set [("a", "1"); ("b", "2"); ("c", "3")].
Proof. split; apply (bool_decide_unpack _); vm_compute; exact I. Defined.

Lemma two_step_attribution_witness :
  exists self d2,
    run_step_events (started 1 0%nat) (take 2 Sample.growing) = ([], inr self)
    /\ delta_of self "given" = Some (Py.key_set [("a", "1")])
    /\ delta_of self "when" = Some d2
    /\ (forall k, k ∈ d2 <->
          k ∈ Py.key_set [("a", "1"); ("b", "2")] /\ k ∉ Py.key_set [("a", "1")])
    /\ Py.key_set [("a", "1")] ## d2
    /\ Py.key_set [("a", "1")] ∪ d2 = Py.key_set [("a", "1"); ("b", "2")].
Proof.
  apply (two_step_attribution 1 0%nat
           (Sample.σ_of (Sample.scenario [] (Some [("a", "1")])))
           (Sample.σ_of (Sample.scenario [] (Some [("a", "1"); ("b", "2")])))
           {| step_result := Sample.step "given" PASSED None None |}
           {| step_result := Sample.step "when" PASSED None None |}).
  - discriminate.
  - exact (proj1 growing_scopes).
Defined.

Lemma three_step_attribution_witness :
  exists self d3,
    run_step_events (started 1 0%nat) Sample.growing = ([], inr self)
    /\ delta_of self "given" = Some (Py.key_set [("a", "1")])
    /\ delta_of self "when"
       = Some (Py.key_set [("a", "1"); ("b", "2")] ∖ Py.key_set [("a", "1")])
    /\ delta_of self "then" = Some d3
    /\ (forall k, k ∈ d3 <->
          (k ∈ Py.key_set [("a", "1"); ("b", "2"); ("c", "3")]
           /\ k ∉ Py.key_set [("a", "1"); ("b", "2")])
          \/ k ∈ Py.key_set [("a", "1")])
    /\ (Py.key_set [("a", "1")] ## d3 <-> Py.key_set [("a", "1")] = ∅).
Proof.
  apply (three_step_attribution 1 0%nat
           (Sample.σ_of (Sample.scenario [] (Some [("a", "1")])))
           (Sample.σ_of (Sample.scenario [] (Some [("a", "1"); ("b", "2")])))
           (Sample.σ_of (Sample.scenario [] (Some [("a", "1"); ("b", "2"); ("c", "3")])))
           {| step_result := Sample.step "given" PASSED None None |}
           {| step_result := Sample.step "when" PASSED None None |}
           {| step_result := Sample.step "then" FAILED None None |}).
  - exact growing_names_NoDup.
  - exact (proj1 growing_scopes).
  - exact (proj2 growing_scopes).
Defined.



Lemma variable_printed_iff_witness :
  Print ("       " +:+ "key" +:+ ": ") (Some blue) newline
    ∈ [Print (section_start_text "    ✗ then" 0 true) None "";
       Print "       key: " (Some blue) newline;
       Print (Sample.quote "val") None newline;
       Print (section_end_text "    ✗ then" 0) None newline]
  <-> "key" ∈ Py.keys (final_scope (Sample.one_step_failed 0%nat))
      /\ exists s delta,
           s ∈ step_results (Sample.one_step_failed 0%nat)
           /\ is_printed s = true
           /\ delta_of (Sample.reporter 1 [("then", {["key"]})]) (step_name s) = Some delta
           /\ "key" ∈ delta.
Proof.
  apply (variable_printed_iff Sample.quote (Sample.reporter 1 [("then", {["key"]})])
           (Sample.one_step_failed 0%nat)).
  vm_compute. reflexivity.
Defined.

